(** * CoreRoot/settings.py: environment-driven configuration

    A shallow embedding of the Django settings module [CoreRoot/settings.py].
    Importing the module runs its top-level statements once, in order:
    [load_dotenv()] merges the environment file into [os.environ], a handful
    of settings are read back from [os.environ] with literal fall-backs, and
    the rest of the module binds literals.  The module namespace left behind
    is the configuration snapshot the framework reads.

    The process environment [os.environ] is a [gmap string string]; the
    import is a computation in a state-and-exception monad over it. *)

From Stdlib Require Import String Ascii ZArith List DecimalString.
From stdpp Require Import gmap strings list fin_maps.
Import ListNotations.
Local Open Scope string_scope.

(** ** Python values *)

(** The values that occur in the module namespace.  Dict literals keep
    their insertion order. *)
#[local] Set Warnings "-register-all".
Inductive value : Type :=
  | VBool (b : bool)
  | VInt (n : Z)
  | VStr (s : string)
  | VList (l : list value)
  | VTuple (l : list value)
  | VDict (d : list (string * value)).

(** [d[k]] on an insertion-ordered dict with string keys. *)
Fixpoint dict_get {V : Type} (k : string) (d : list (string * V)) : option V :=
  match d with
  | [] => None
  | (k', v) :: d' => if String.eqb k k' then Some v else dict_get k d'
  end.

(** [d[k] = v]: overwrite in place when the key exists, append otherwise. *)
Fixpoint dict_set {V : Type} (k : string) (v : V) (d : list (string * V))
  : list (string * V) :=
  match d with
  | [] => [(k, v)]
  | (k', v') :: d' =>
      if String.eqb k k' then (k, v) :: d' else (k', v') :: dict_set k v d'
  end.

(** [v[k]] for a value; only dicts are subscriptable by a string. *)
Definition subscript (v : value) (k : string) : option value :=
  match v with
  | VDict d => dict_get k d
  | _ => None
  end.

(** ** Exceptions and the import monad *)

Inductive exn : Type :=
  | ValueError (msg : string).

Abbreviation environ := (gmap string string).

(** A statement reads and writes [os.environ] and either yields a value or
    raises. *)
Definition py (A : Type) : Type := environ -> environ * (exn + A).

Definition ret {A : Type} (a : A) : py A := fun e => (e, inr a).

Definition raise {A : Type} (x : exn) : py A := fun e => (e, inl x).

Definition bind {A B : Type} (m : py A) (f : A -> py B) : py B :=
  fun e =>
    match m e with
    | (e', inr a) => f a e'
    | (e', inl x) => (e', inl x)
    end.

Declare Scope py_scope.
Delimit Scope py_scope with py.
Notation "'let*' x ':=' m 'in' k" := (bind m (fun x => k))
  (at level 10, x name, m at level 100, k at level 200) : py_scope.
Notation "m ';;' k" := (bind m (fun _ => k))
  (at level 100, k at level 200, right associativity) : py_scope.

(** ** [str.split(sep)] *)

(** The scan of [s.split(sep)] for a non-empty [sep]: [cur] is the segment
    being collected, [skip] counts the characters of a separator occurrence
    still to be stepped over.  Occurrences are taken left to right and do
    not overlap; every occurrence closes a segment, so empty segments are
    kept. *)
Fixpoint split_from (sep : string) (skip : nat) (cur s : string) : list string :=
  match s with
  | EmptyString => [cur]
  | String c s' =>
      match skip with
      | S n => split_from sep n cur s'
      | O =>
          if String.prefix sep s
          then cur :: split_from sep (String.length sep - 1) "" s'
          else split_from sep 0 (cur ++ String c "") s'
      end
  end.

(** [s.split(sep)]: an empty separator raises [ValueError]. *)
Definition str_split (s sep : string) : py (list string) :=
  match sep with
  | EmptyString => raise (ValueError "empty separator")
  | _ => ret (split_from sep 0 "" s)
  end.


(** [c in s] for a single character. *)
Fixpoint str_contains (c : ascii) (s : string) : bool :=
  match s with
  | EmptyString => false
  | String c' s' => Ascii.eqb c c' || str_contains c s'
  end.

(** ** [os.environ] *)

(** [os.environ.get(key)]: [None] when the variable is unset. *)
Definition os_environ_get (key : string) : py (option string) :=
  fun e => (e, inr (e !! key)).

(** [os.environ.get(key, default)], which is also [os.getenv(key, default)]. *)
Definition os_getenv (key default : string) : py string :=
  fun e => (e, inr (match e !! key with Some v => v | None => default end)).

(** ** [dotenv.load_dotenv()] *)

(** The bindings of the environment file that [load_dotenv()] finds, in
    file order, as python-dotenv parses them and after its variable
    expansion; a name written without [=] is bound to [None], and no file
    is the empty list. *)
Abbreviation dotenv := (list (string * option string)).

(** [DotEnv.dict()]: the bindings collected into an ordered dict, a later
    binding of a name replacing the earlier one. *)
Definition dotenv_dict (bindings : dotenv) : list (string * option string) :=
  fold_left (fun d kv => dict_set (fst kv) (snd kv) d) bindings [].

(** [DotEnv.set_as_environment_variables()] with [override=False]: a
    variable already in [os.environ] is left alone, a [None] binding sets
    nothing.  This is the loop when every assignment to [os.environ]
    succeeds; [Checked.set_as_environment_variables] below has the
    assignments that raise. *)
Definition set_as_environment_variables (d : list (string * option string))
  (e : environ) : environ :=
  fold_left
    (fun e kv =>
       match e !! fst kv with
       | Some _ => e
       | None =>
           match snd kv with
           | Some v => <[fst kv := v]> e
           | None => e
           end
       end)
    d e.

(** [load_dotenv()] with its default arguments, when loading is not
    switched off and every binding can be stored; [Checked.load_dotenv]
    below is the call in general. *)
Definition load_dotenv (file : dotenv) : py unit :=
  fun e => (set_as_environment_variables (dotenv_dict file) e, inr tt).

(** The string, if any, that the environment file gives to [k]. *)
Definition dotenv_value (file : dotenv) (k : string) : option string :=
  match dict_get k (dotenv_dict file) with
  | Some (Some v) => Some v
  | _ => None
  end.

(** ** The module namespace *)

(** A [pathlib.Path] that is absolute and resolved: the components below
    the root. *)
Abbreviation path := (list string).

(** [p.parent]; the parent of the root is the root. *)
Definition parent (p : path) : path := removelast p.

(** [p / name] *)
Definition joinpath (p : path) (name : string) : path := p ++ [name].

(** The names the module binds, with the Python type each one always has;
    the heterogeneous dict and list literals are kept as [value]s. *)
Record Settings : Type := {
  ENV : option string;
  BASE_DIR : path;
  SECRET_KEY : string;
  DEBUG : bool;
  ALLOWED_HOSTS : list string;
  INSTALLED_APPS : list string;
  MIDDLEWARE : list string;
  ROOT_URLCONF : string;
  TEMPLATES : value;
  WSGI_APPLICATION : string;
  DATABASES : value;
  AUTH_PASSWORD_VALIDATORS : value;
  LANGUAGE_CODE : string;
  TIME_ZONE : string;
  USE_I18N : bool;
  USE_TZ : bool;
  STATIC_URL : string;
  DEFAULT_AUTO_FIELD : string;
  AUTH_USER_MODEL : string;
  REST_FRAMEWORK : value;
  CORS_ALLOWED_ORIGINS : list string;
  MEDIA_URL : string;
  MEDIA_ROOT : path;
  DEFAULT_AVATAR_URL : string
}.

Definition installed_apps : list string :=
  [ "django.contrib.admin";
    "django.contrib.auth";
    "django.contrib.contenttypes";
    "django.contrib.sessions";
    "django.contrib.messages";
    "django.contrib.staticfiles";
    "rest_framework";
    "rest_framework_simplejwt";
    "corsheaders";
    "core";
    "core.user";
    "core.auth";
    "core.post";
    "core.comment" ].

Definition middleware : list string :=
  [ "django.middleware.security.SecurityMiddleware";
    "django.contrib.sessions.middleware.SessionMiddleware";
    "corsheaders.middleware.CorsMiddleware";
    "django.middleware.common.CommonMiddleware";
    "django.middleware.csrf.CsrfViewMiddleware";
    "django.contrib.auth.middleware.AuthenticationMiddleware";
    "django.contrib.messages.middleware.MessageMiddleware";
    "django.middleware.clickjacking.XFrameOptionsMiddleware" ].

Definition templates : value :=
  VList [
    VDict [
      ("BACKEND", VStr "django.template.backends.django.DjangoTemplates");
      ("DIRS", VList []);
      ("APP_DIRS", VBool true);
      ("OPTIONS", VDict [
         ("context_processors", VList [
            VStr "django.template.context_processors.debug";
            VStr "django.template.context_processors.request";
            VStr "django.contrib.auth.context_processors.auth";
            VStr "django.contrib.messages.context_processors.messages" ]) ])
    ]
  ].

Definition auth_password_validators : value :=
  VList [
    VDict [("NAME", VStr "django.contrib.auth.password_validation.UserAttributeSimilarityValidator")];
    VDict [("NAME", VStr "django.contrib.auth.password_validation.MinimumLengthValidator")];
    VDict [("NAME", VStr "django.contrib.auth.password_validation.CommonPasswordValidator")];
    VDict [("NAME", VStr "django.contrib.auth.password_validation.NumericPasswordValidator")]
  ].

Definition rest_framework : value :=
  VDict [
    ("DEFAULT_AUTHENTICATION_CLASSES",
       VTuple [VStr "rest_framework_simplejwt.authentication.JWTAuthentication"]);
    ("DEFAULT_FILTER_BACKENDS",
       VList [VStr "django_filters.rest_framework.DjangoFilterBackend"]);
    ("DEFAULT_PAGINATION_CLASS",
       VStr "rest_framework.pagination.LimitOffsetPagination");
    ("PAGE_SIZE", VInt 10)
  ].

Definition cors_allowed_origins : list string :=
  [ "http://localhost:3000";
    "http://127.0.0.1:3000" ].

(** The fall-back literals of the settings read from [os.environ]. *)
Definition secret_key_default : string :=
  "qkl+xdr8aimpf-&x(mi7)dwt^-q77aji#j*d#02-5usa32r9!y".

(** ** Importing the module *)

(** The top-level statements of [settings.py], in source order.
    [file] is the parsed environment file that [load_dotenv()] finds and
    [module_file] is [Path(__file__).resolve()]. *)
Definition settings (file : dotenv) (module_file : path) : py Settings :=
  (load_dotenv file ;;
   let* env := os_environ_get "ENV" in
   let base_dir := parent (parent module_file) in
   let* secret_key := os_getenv "SECRET_KEY" secret_key_default in
   let debug := if decide (env = Some "PROD") then false else true in
   let* hosts := os_getenv "DJANGO_ALLOWED_HOSTS" "*" in
   let* allowed_hosts := str_split hosts "," in
   let* db_name := os_getenv "DATABASE_NAME" "coredb" in
   let* db_user := os_getenv "DATABASE_USER" "core" in
   let* db_password := os_getenv "DATABASE_PASSWORD" "wCh29&HE&T83" in
   let* db_host := os_getenv "DATABASE_HOST" "localhost" in
   let* db_port := os_getenv "DATABASE_PORT" "5432" in
   let databases :=
     VDict [
       ("default", VDict [
          ("ENGINE", VStr "django.db.backends.postgresql_psycopg2");
          ("NAME", VStr db_name);
          ("USER", VStr db_user);
          ("PASSWORD", VStr db_password);
          ("HOST", VStr db_host);
          ("PORT", VStr db_port) ]) ] in
   ret {|
     ENV := env;
     BASE_DIR := base_dir;
     SECRET_KEY := secret_key;
     DEBUG := debug;
     ALLOWED_HOSTS := allowed_hosts;
     INSTALLED_APPS := installed_apps;
     MIDDLEWARE := middleware;
     ROOT_URLCONF := "CoreRoot.urls";
     TEMPLATES := templates;
     WSGI_APPLICATION := "CoreRoot.wsgi.application";
     DATABASES := databases;
     AUTH_PASSWORD_VALIDATORS := auth_password_validators;
     LANGUAGE_CODE := "en-us";
     TIME_ZONE := "UTC";
     USE_I18N := true;
     USE_TZ := true;
     STATIC_URL := "/static/";
     DEFAULT_AUTO_FIELD := "django.db.models.BigAutoField";
     AUTH_USER_MODEL := "core_user.User";
     REST_FRAMEWORK := rest_framework;
     CORS_ALLOWED_ORIGINS := cors_allowed_origins;
     MEDIA_URL := "/media/";
     MEDIA_ROOT := joinpath base_dir "uploads";
     DEFAULT_AVATAR_URL := "https://avatars.dicebear.com/api/identicon/.svg"
   |})%py.

(** [settings.DATABASES["default"][k]] *)
Definition database_setting (cfg : Settings) (k : string) : option value :=
  match subscript (DATABASES cfg) "default" with
  | Some db => subscript db k
  | None => None
  end.

(** What importing the module yields: the namespace, or the exception
    that aborted the import. *)
Definition import_settings (file : dotenv) (module_file : path) (e : environ)
  : exn + Settings :=
  snd (settings file module_file e).

(** [os.environ] as the import leaves it. *)
Definition environ_after_import (file : dotenv) (module_file : path)
  (e : environ) : environ :=
  fst (settings file module_file e).

(** The layered lookup the specification describes, written from its
    words: the process environment is the first source, the environment
    file the second, and the first source that has the key gives the raw
    value.  [load_dotenv_lookup] below relates the code to it. *)
Definition source_lookup (e : environ) (file : dotenv) (k : string)
  : option string :=
  match e !! k with
  | Some v => Some v
  | None => dotenv_value file k
  end.

(** A module path used in the examples. *)
Definition example_module_file : path :=
  ["srv"; "backend"; "CoreRoot"; "settings.py"].


(** The environment variables that the module reads. *)
Definition settings_keys : list string :=
  [ "ENV"; "SECRET_KEY"; "DJANGO_ALLOWED_HOSTS"; "DATABASE_NAME";
    "DATABASE_USER"; "DATABASE_PASSWORD"; "DATABASE_HOST"; "DATABASE_PORT" ].

(** ** The import with the checks of [os.environ]

    Two things can keep [load_dotenv()] from merging the whole file.
    The assignment [os.environ[k] = v] goes through [putenv], which
    refuses a NUL in the name or in the value, an empty name and a name
    with "="; it then raises [ValueError], which nothing catches, so the
    import stops with the earlier bindings already set.  And python-dotenv
    has, in its recent versions only, a switch read from [os.environ] that
    makes [load_dotenv()] return without loading; the module does not pin
    the version, so the switch is the parameter [disabled], constantly
    [false] for the versions without it. *)
Module Checked.

(** The checks of [os.environ[k] = v], in the order [putenv] makes them. *)
Definition setitem_error (k v : string) : option exn :=
  if str_contains Ascii.zero k || str_contains Ascii.zero v
  then Some (ValueError "embedded null byte")
  else if String.eqb k "" || str_contains "=" k
  then Some (ValueError "illegal environment variable name")
  else None.

Definition storable (k v : string) : bool :=
  match setitem_error k v with
  | Some _ => false
  | None => true
  end.

(** [os.environ[k] = v] *)
Definition environ_setitem (k v : string) : py unit :=
  fun e =>
    match setitem_error k v with
    | Some x => (e, inl x)
    | None => (<[k := v]> e, inr tt)
    end.

(** [k in os.environ] *)
Definition environ_contains (k : string) : py bool :=
  fun e => (e, inr (match e !! k with Some _ => true | None => false end)).

(** [DotEnv.set_as_environment_variables()] with [override=False]. *)
Fixpoint set_as_environment_variables (d : list (string * option string))
  : py unit :=
  match d with
  | [] => ret tt
  | (k, v) :: d' =>
      (let* present := environ_contains k in
       if present : bool then set_as_environment_variables d'
       else
         match v with
         | Some s => environ_setitem k s ;; set_as_environment_variables d'
         | None => set_as_environment_variables d'
         end)%py
  end.

(** [load_dotenv()] with its default arguments. *)
Definition load_dotenv (disabled : environ -> bool) (file : dotenv)
  : py unit :=
  fun e =>
    if disabled e then (e, inr tt)
    else set_as_environment_variables (dotenv_dict file) e.

(** The top-level statements of [settings.py], in source order. *)
Definition settings (disabled : environ -> bool) (file : dotenv)
  (module_file : path) : py Settings :=
  (load_dotenv disabled file ;;
   let* env := os_environ_get "ENV" in
   let base_dir := parent (parent module_file) in
   let* secret_key := os_getenv "SECRET_KEY" secret_key_default in
   let debug := if decide (env = Some "PROD") then false else true in
   let* hosts := os_getenv "DJANGO_ALLOWED_HOSTS" "*" in
   let* allowed_hosts := str_split hosts "," in
   let* db_name := os_getenv "DATABASE_NAME" "coredb" in
   let* db_user := os_getenv "DATABASE_USER" "core" in
   let* db_password := os_getenv "DATABASE_PASSWORD" "wCh29&HE&T83" in
   let* db_host := os_getenv "DATABASE_HOST" "localhost" in
   let* db_port := os_getenv "DATABASE_PORT" "5432" in
   let databases :=
     VDict [
       ("default", VDict [
          ("ENGINE", VStr "django.db.backends.postgresql_psycopg2");
          ("NAME", VStr db_name);
          ("USER", VStr db_user);
          ("PASSWORD", VStr db_password);
          ("HOST", VStr db_host);
          ("PORT", VStr db_port) ]) ] in
   ret {|
     ENV := env;
     BASE_DIR := base_dir;
     SECRET_KEY := secret_key;
     DEBUG := debug;
     ALLOWED_HOSTS := allowed_hosts;
     INSTALLED_APPS := installed_apps;
     MIDDLEWARE := middleware;
     ROOT_URLCONF := "CoreRoot.urls";
     TEMPLATES := templates;
     WSGI_APPLICATION := "CoreRoot.wsgi.application";
     DATABASES := databases;
     AUTH_PASSWORD_VALIDATORS := auth_password_validators;
     LANGUAGE_CODE := "en-us";
     TIME_ZONE := "UTC";
     USE_I18N := true;
     USE_TZ := true;
     STATIC_URL := "/static/";
     DEFAULT_AUTO_FIELD := "django.db.models.BigAutoField";
     AUTH_USER_MODEL := "core_user.User";
     REST_FRAMEWORK := rest_framework;
     CORS_ALLOWED_ORIGINS := cors_allowed_origins;
     MEDIA_URL := "/media/";
     MEDIA_ROOT := joinpath base_dir "uploads";
     DEFAULT_AVATAR_URL := "https://avatars.dicebear.com/api/identicon/.svg"
   |})%py.

(** What importing the module yields: the namespace, or the exception
    that aborted the import. *)
Definition import_settings (disabled : environ -> bool) (file : dotenv)
  (module_file : path) (e : environ) : exn + Settings :=
  snd (settings disabled file module_file e).

(** [os.environ] as the import leaves it, also when it is aborted. *)
Definition environ_after_import (disabled : environ -> bool) (file : dotenv)
  (module_file : path) (e : environ) : environ :=
  fst (settings disabled file module_file e).

(** python-dotenv without the switch. *)
Definition no_switch : environ -> bool := fun _ => false.

End Checked.

(** * Properties *)

(** ** Ordered dicts *)

Lemma dict_get_dict_set {V : Type} (k k' : string) (v : V) d :
  dict_get k (dict_set k' v d) =
  if String.eqb k k' then Some v else dict_get k d.
Proof.
  induction d as [|[k0 v0] d IH]; simpl.
  - reflexivity.
  - destruct (String.eqb_spec k' k0) as [->|Hne]; simpl.
    + destruct (String.eqb k k0); reflexivity.
    + rewrite IH. destruct (String.eqb_spec k k0) as [->|Hne'].
      * destruct (String.eqb_spec k0 k'); congruence.
      * reflexivity.
Qed.

Lemma dict_set_keys_fresh {V : Type} (k k' : string) (v : V) d :
  k <> k' -> ~ In k (map fst d) -> ~ In k (map fst (dict_set k' v d)).
Proof.
  intros Hne. induction d as [|[k0 v0] d IH]; simpl.
  - intuition.
  - destruct (String.eqb_spec k' k0) as [->|Hk]; simpl; intuition.
Qed.

Lemma dict_set_NoDup {V : Type} (k : string) (v : V) d :
  List.NoDup (map fst d) -> List.NoDup (map fst (dict_set k v d)).
Proof.
  induction d as [|[k0 v0] d IH]; simpl; intros Hd.
  - constructor; [intros [] | constructor].
  - inversion Hd as [|? ? Hnin Hd']; subst.
    destruct (String.eqb_spec k k0) as [->|Hk]; simpl.
    + constructor; assumption.
    + constructor.
      * apply dict_set_keys_fresh; auto.
      * auto.
Qed.

Lemma dotenv_dict_NoDup (file : dotenv) : List.NoDup (map fst (dotenv_dict file)).
Proof.
  unfold dotenv_dict.
  assert (H : forall acc : list (string * option string),
             List.NoDup (map fst acc) ->
             List.NoDup (map fst
               (fold_left (fun d kv => dict_set (fst kv) (snd kv) d) file acc))).
  { induction file as [|[k v] file IH]; simpl; intros acc Hacc.
    - exact Hacc.
    - apply IH, dict_set_NoDup, Hacc. }
  apply H. constructor.
Qed.

(** The dict holds, for every name, its last binding in the file. *)
Lemma dotenv_dict_last (file : dotenv) (k : string) :
  dict_get k (dotenv_dict file) = dict_get k (rev file).
Proof.
  unfold dotenv_dict.
  assert (H : forall acc : list (string * option string),
             dict_get k (fold_left (fun d kv => dict_set (fst kv) (snd kv) d) file acc)
             = match dict_get k (rev file) with
               | Some v => Some v
               | None => dict_get k acc
               end).
  { induction file as [|[k0 v0] file IH]; simpl; intros acc.
    - reflexivity.
    - rewrite IH. clear IH.
      assert (Happ : forall l1 l2 : list (string * option string),
                 dict_get k (l1 ++ l2) =
                 match dict_get k l1 with
                 | Some v => Some v
                 | None => dict_get k l2
                 end).
      { induction l1 as [|[k1 v1] l1 IH1]; simpl; intros l2.
        - reflexivity.
        - destruct (String.eqb k k1); auto. }
      rewrite Happ. destruct (dict_get k (rev file)); [reflexivity|].
      simpl. rewrite dict_get_dict_set. destruct (String.eqb k k0); reflexivity. }
  rewrite H. simpl. destruct (dict_get k (rev file)); reflexivity.
Qed.

(** ** Merging the environment file *)

Lemma set_as_environment_variables_fresh d (e : environ) (k : string) :
  ~ In k (map fst d) ->
  set_as_environment_variables d e !! k = e !! k.
Proof.
  revert e. induction d as [|[k0 v0] d IH]; simpl; intros e Hk.
  - reflexivity.
  - unfold set_as_environment_variables in *. simpl.
    rewrite IH by tauto.
    destruct (e !! k0); [reflexivity|].
    destruct v0; [|reflexivity].
    apply lookup_insert_ne. tauto.
Qed.

Lemma set_as_environment_variables_lookup d (e : environ) (k : string) :
  List.NoDup (map fst d) ->
  set_as_environment_variables d e !! k =
  match e !! k with
  | Some v => Some v
  | None => match dict_get k d with Some (Some v) => Some v | _ => None end
  end.
Proof.
  revert e. induction d as [|[k0 v0] d IH]; simpl; intros e Hd.
  - destruct (e !! k); reflexivity.
  - inversion Hd as [|? ? Hnin Hd']; subst.
    destruct (String.eqb_spec k k0) as [->|Hne].
    + change (set_as_environment_variables ((k0, v0) :: d) e)
        with (set_as_environment_variables d
                match e !! k0 with
                | Some _ => e
                | None => match v0 with Some v => <[k0 := v]> e | None => e end
                end).
      rewrite set_as_environment_variables_fresh by assumption.
      destruct (e !! k0) eqn:He; [exact He|].
      destruct v0; [apply lookup_insert_eq | exact He].
    + change (set_as_environment_variables ((k0, v0) :: d) e)
        with (set_as_environment_variables d
                match e !! k0 with
                | Some _ => e
                | None => match v0 with Some v => <[k0 := v]> e | None => e end
                end).
      rewrite IH by assumption.
      destruct (e !! k0); [reflexivity|].
      destruct v0; [|reflexivity].
      rewrite lookup_insert_ne by congruence. reflexivity.
Qed.

(** After [load_dotenv()], a variable holds its process-environment value
    when it had one, and otherwise the value the file gives it. *)
Lemma load_dotenv_lookup (file : dotenv) (e : environ) (k : string) :
  fst (load_dotenv file e) !! k = source_lookup e file k.
Proof.
  unfold load_dotenv, source_lookup, dotenv_value. simpl.
  apply set_as_environment_variables_lookup, dotenv_dict_NoDup.
Qed.


(** ** Splitting on a separator *)

Example split_keeps_empty_segments :
  split_from "," 0 "" ",a,,b," = [""; "a"; ""; "b"; ""].
Proof. reflexivity. Qed.

Example split_long_separator :
  split_from "--" 0 "" "a--b---c" = ["a"; "b"; "-c"].
Proof. reflexivity. Qed.

Example split_no_overlap : split_from "aa" 0 "" "aaa" = [""; "a"].
Proof. reflexivity. Qed.












(** ** Running the import *)

(** The import never raises: it leaves [os.environ] as [load_dotenv()]
    made it and binds every environment-driven name from that. *)
Lemma settings_run (file : dotenv) (module_file : path) (e : environ) :
  exists cfg,
    settings file module_file e = (fst (load_dotenv file e), inr cfg)
    /\ ENV cfg = fst (load_dotenv file e) !! "ENV"
    /\ DEBUG cfg = (if decide (ENV cfg = Some "PROD") then false else true)
    /\ SECRET_KEY cfg =
         default secret_key_default (fst (load_dotenv file e) !! "SECRET_KEY")
    /\ ALLOWED_HOSTS cfg =
         split_from "," 0 ""
           (default "*" (fst (load_dotenv file e) !! "DJANGO_ALLOWED_HOSTS"))
    /\ database_setting cfg "NAME" =
         Some (VStr (default "coredb" (fst (load_dotenv file e) !! "DATABASE_NAME")))
    /\ database_setting cfg "USER" =
         Some (VStr (default "core" (fst (load_dotenv file e) !! "DATABASE_USER")))
    /\ database_setting cfg "PASSWORD" =
         Some (VStr (default "wCh29&HE&T83"
                       (fst (load_dotenv file e) !! "DATABASE_PASSWORD")))
    /\ database_setting cfg "HOST" =
         Some (VStr (default "localhost" (fst (load_dotenv file e) !! "DATABASE_HOST")))
    /\ database_setting cfg "PORT" =
         Some (VStr (default "5432" (fst (load_dotenv file e) !! "DATABASE_PORT")))
    /\ CORS_ALLOWED_ORIGINS cfg = cors_allowed_origins.
Proof.
  unfold settings, bind, ret, os_environ_get, os_getenv, str_split.
  cbv beta iota.
  destruct (load_dotenv file e) as [e' [x|[]]] eqn:Hload.
  - unfold load_dotenv in Hload. discriminate.
  - cbn [fst]. eexists. split; [reflexivity|].
    repeat split; reflexivity.
Qed.

(** The import in terms of the sources: it succeeds, leaves in
    [os.environ] the layered lookup of every key, and binds the
    environment-driven names from the layered lookup and the literals. *)
Lemma import_settings_run (file : dotenv) (module_file : path) (e : environ) :
  exists cfg,
    import_settings file module_file e = inr cfg
    /\ environ_after_import file module_file e = fst (load_dotenv file e)
    /\ ENV cfg = source_lookup e file "ENV"
    /\ DEBUG cfg = (if decide (ENV cfg = Some "PROD") then false else true)
    /\ SECRET_KEY cfg =
         default secret_key_default (source_lookup e file "SECRET_KEY")
    /\ ALLOWED_HOSTS cfg =
         split_from "," 0 ""
           (default "*" (source_lookup e file "DJANGO_ALLOWED_HOSTS"))
    /\ database_setting cfg "NAME" =
         Some (VStr (default "coredb" (source_lookup e file "DATABASE_NAME")))
    /\ database_setting cfg "USER" =
         Some (VStr (default "core" (source_lookup e file "DATABASE_USER")))
    /\ database_setting cfg "PASSWORD" =
         Some (VStr (default "wCh29&HE&T83"
                       (source_lookup e file "DATABASE_PASSWORD")))
    /\ database_setting cfg "HOST" =
         Some (VStr (default "localhost" (source_lookup e file "DATABASE_HOST")))
    /\ database_setting cfg "PORT" =
         Some (VStr (default "5432" (source_lookup e file "DATABASE_PORT")))
    /\ CORS_ALLOWED_ORIGINS cfg = cors_allowed_origins.
Proof.
  destruct (settings_run file module_file e)
    as (cfg & Hrun & Henv & Hdebug & Hkey & Hhosts & Hname & Huser & Hpass
        & Hhost & Hport & Hcors).
  rewrite !load_dotenv_lookup in *.
  exists cfg. unfold import_settings, environ_after_import. rewrite Hrun.
  repeat split; assumption || reflexivity.
Qed.


Ltac import_at file module_file e cfg :=
  destruct (import_settings_run file module_file e)
    as (cfg & ?Himport & ?Hafter & ?HENV & ?HDEBUG & ?HSECRET & ?HHOSTS
        & ?HNAME & ?HUSER & ?HPASSWORD & ?HHOST & ?HPORT & ?HCORS).

(** ** The debug flag *)



(** ** The allowed-hosts list *)






(** ** Defaults *)

(** C3. With an empty process environment and an empty environment file,
    every setting that has a fall-back literal is bound to exactly that
    literal: [SECRET_KEY], the five database settings, and
    [ALLOWED_HOSTS], which is its default "*" split on comma. *)
Theorem defaults_on_empty_sources (module_file : path) :
  exists cfg,
    import_settings [] module_file ∅ = inr cfg
    /\ SECRET_KEY cfg = "qkl+xdr8aimpf-&x(mi7)dwt^-q77aji#j*d#02-5usa32r9!y"
    /\ snd ((load_dotenv [] ;; os_getenv "DJANGO_ALLOWED_HOSTS" "*")%py ∅)
       = inr "*"
    /\ ALLOWED_HOSTS cfg = ["*"]
    /\ database_setting cfg "NAME" = Some (VStr "coredb")
    /\ database_setting cfg "USER" = Some (VStr "core")
    /\ database_setting cfg "PASSWORD" = Some (VStr "wCh29&HE&T83")
    /\ database_setting cfg "HOST" = Some (VStr "localhost")
    /\ database_setting cfg "PORT" = Some (VStr "5432").
Proof.
  import_at (@nil (string * option string)) module_file (∅ : environ) cfg.
  exists cfg. split; [assumption|].
  rewrite HSECRET, HHOSTS, HNAME, HUSER, HPASSWORD, HHOST, HPORT.
  repeat split; reflexivity.
Qed.

(** ** Precedence of the process environment *)



(** ** The database port *)




(** C6, counterexample.  "abc" is not an integer literal, and a source
    that sets DATABASE_PORT to it does not make the import fail: the
    import returns a namespace whose port is the string "abc". *)
Lemma unparsable_port_raises_fails :
  NilEmpty.int_of_string "abc" = None
  /\ (forall x : exn,
        import_settings [] example_module_file {["DATABASE_PORT" := "abc"]}
        <> inl x)
  /\ exists cfg,
       import_settings [] example_module_file {["DATABASE_PORT" := "abc"]}
         = inr cfg
       /\ database_setting cfg "PORT" = Some (VStr "abc").
Proof.
  split; [reflexivity|]. split.
  - intros x Hraise. vm_compute in Hraise. discriminate Hraise.
  - eexists. split; vm_compute; reflexivity.
Qed.

(** ** The key without a default *)




(** ** Importing twice *)



(** ** The CORS origins *)



(** * Further properties of the import *)

(** ** Bindings of the environment file *)

Lemma dict_get_app {V : Type} (k : string) (l1 l2 : list (string * V)) :
  dict_get k (l1 ++ l2) =
  match dict_get k l1 with
  | Some v => Some v
  | None => dict_get k l2
  end.
Proof.
  induction l1 as [|[k1 v1] l1 IH]; cbn [dict_get app]; [reflexivity|].
  destruct (String.eqb k k1); [reflexivity | exact IH].
Qed.

Lemma dict_get_fresh {V : Type} (k : string) (l : list (string * V)) :
  ~ In k (map fst l) -> dict_get k l = None.
Proof.
  induction l as [|[k1 v1] l IH]; cbn [dict_get map fst In]; intros Hk.
  - reflexivity.
  - destruct (String.eqb_spec k k1) as [->|_]; [tauto | apply IH; tauto].
Qed.

Lemma dict_get_In {V : Type} (k : string) (v : V) (l : list (string * V)) :
  dict_get k l = Some v -> In (k, v) l.
Proof.
  induction l as [|[k1 v1] l IH]; cbn [dict_get In]; intros Hget.
  - discriminate.
  - destruct (String.eqb_spec k k1) as [->|_].
    + left. congruence.
    + right. apply IH, Hget.
Qed.

Lemma dict_get_NoDup_In {V : Type} (k : string) (v : V)
  (l : list (string * V)) :
  List.NoDup (map fst l) -> In (k, v) l -> dict_get k l = Some v.
Proof.
  induction l as [|[k1 v1] l IH]; cbn [dict_get map fst In]; intros Hnd Hin.
  - contradiction.
  - inversion Hnd as [|? ? Hfresh Hnd']; subst.
    destruct Hin as [Heq|Hin].
    + injection Heq as -> ->. rewrite String.eqb_refl. reflexivity.
    + destruct (String.eqb_spec k k1) as [->|_]; [|apply IH; assumption].
      exfalso. apply Hfresh. change k1 with (fst (k1, v)).
      apply in_map, Hin.
Qed.

Lemma in_keys_rev {V : Type} (k : string) (l : list (string * V)) :
  In k (map fst (rev l)) <-> In k (map fst l).
Proof. rewrite map_rev. symmetry. apply in_rev. Qed.

(** The binding that the dict keeps for a name is the one of its last
    line. *)
Lemma dotenv_dict_last_line (pre post : dotenv) (k : string)
  (x : option string) :
  ~ In k (map fst post) ->
  dict_get k (dotenv_dict (pre ++ (k, x) :: post)) = Some x.
Proof.
  intros Hpost. rewrite dotenv_dict_last, rev_app_distr.
  cbn [rev]. rewrite <- app_assoc, dict_get_app.
  rewrite dict_get_fresh by (rewrite in_keys_rev; exact Hpost).
  cbn [app dict_get]. rewrite String.eqb_refl. reflexivity.
Qed.

Lemma dotenv_dict_fresh (file : dotenv) (k : string) :
  ~ In k (map fst file) -> dict_get k (dotenv_dict file) = None.
Proof.
  intros Hk. rewrite dotenv_dict_last.
  apply dict_get_fresh. rewrite in_keys_rev. exact Hk.
Qed.

Lemma import_environ (file : dotenv) (module_file : path) (e : environ)
  (k : string) :
  environ_after_import file module_file e !! k = source_lookup e file k.
Proof.
  destruct (import_settings_run file module_file e) as (cfg & _ & Hafter & _).
  rewrite Hafter. apply load_dotenv_lookup.
Qed.

(** A name whose last line in the environment file has no value is not
    set by the import, even when an earlier line gives it a string. *)
Theorem dotenv_bare_name_sets_nothing (pre post : dotenv)
  (module_file : path) (e : environ) (k : string) :
  e !! k = None ->
  ~ In k (map fst post) ->
  environ_after_import (pre ++ (k, None) :: post) module_file e !! k = None.
Proof.
  intros He Hpost. rewrite import_environ.
  unfold source_lookup, dotenv_value.
  rewrite He, dotenv_dict_last_line by exact Hpost. reflexivity.
Qed.

Lemma dotenv_bare_name_sets_nothing_witness :
  environ_after_import
    ([("ENV", Some "PROD")] ++ ("ENV", None) :: [])
    example_module_file ∅ !! "ENV"
  = None.
Proof.
  apply dotenv_bare_name_sets_nothing.
  - reflexivity.
  - cbn [map In]. tauto.
Defined.

(** The import leaves alone every variable that the environment file
    does not name: it neither sets, changes nor removes it. *)
Theorem import_leaves_unnamed_variables (file : dotenv) (module_file : path)
  (e : environ) (k : string) :
  ~ In k (map fst file) ->
  environ_after_import file module_file e !! k = e !! k.
Proof.
  intros Hk. rewrite import_environ. unfold source_lookup, dotenv_value.
  rewrite dotenv_dict_fresh by exact Hk.
  destruct (e !! k); reflexivity.
Qed.

Lemma import_leaves_unnamed_variables_witness :
  environ_after_import [("SECRET_KEY", Some "k")] example_module_file
    {["PATH" := "/usr/bin"]} !! "HOME"
  = ({["PATH" := "/usr/bin"]} : environ) !! "HOME".
Proof.
  apply import_leaves_unnamed_variables.
  cbn [map fst In]. intros [H|[]]. discriminate H.
Defined.

(** Every variable found in [os.environ] after the import was in the
    process environment with that value, or is bound to that value by a
    line of the environment file. *)
Theorem import_invents_no_value (file : dotenv) (module_file : path)
  (e : environ) (k v : string) :
  environ_after_import file module_file e !! k = Some v ->
  e !! k = Some v \/ (e !! k = None /\ In (k, Some v) file).
Proof.
  rewrite import_environ. unfold source_lookup, dotenv_value.
  destruct (e !! k) as [w|]; [left; assumption|].
  intros Hfile. right. split; [reflexivity|].
  destruct (dict_get k (dotenv_dict file)) as [[w|]|] eqn:Hget;
    try discriminate.
  injection Hfile as ->.
  rewrite dotenv_dict_last in Hget.
  apply in_rev, dict_get_In, Hget.
Qed.

Lemma import_invents_no_value_witness :
  ({["ENV" := "PROD"]} : environ) !! "SECRET_KEY" = Some "k"
  \/ (({["ENV" := "PROD"]} : environ) !! "SECRET_KEY" = None
      /\ In ("SECRET_KEY", Some "k") [("SECRET_KEY", Some "k")]).
Proof.
  apply (import_invents_no_value [("SECRET_KEY", Some "k")]
           example_module_file {["ENV" := "PROD"]} "SECRET_KEY" "k").
  reflexivity.
Defined.

(** ** Order of the bindings of the environment file *)

Lemma dict_get_permutation {V : Type} (k : string) (l l' : list (string * V)) :
  List.NoDup (map fst l) -> Permutation l l' -> dict_get k l = dict_get k l'.
Proof.
  intros Hnd Hperm.
  assert (Hnd' : List.NoDup (map fst l')).
  { eapply Permutation_NoDup; [apply Permutation_map, Hperm | exact Hnd]. }
  destruct (dict_get k l) as [v|] eqn:Hl.
  - symmetry. apply dict_get_NoDup_In; [exact Hnd'|].
    eapply Permutation_in; [exact Hperm | apply dict_get_In, Hl].
  - destruct (dict_get k l') as [v'|] eqn:Hl'; [|reflexivity].
    rewrite <- Hl. apply dict_get_NoDup_In; [exact Hnd|].
    eapply Permutation_in; [symmetry; exact Hperm | apply dict_get_In, Hl'].
Qed.

(** For bindings with distinct names, [load_dotenv] does not depend on
    their order. *)
Lemma load_dotenv_permutation (file file' : dotenv) (e : environ) :
  List.NoDup (map fst file) ->
  Permutation file file' ->
  fst (load_dotenv file' e) = fst (load_dotenv file e).
Proof.
  intros Hnd Hperm.
  apply map_eq. intros k. rewrite !load_dotenv_lookup.
  unfold source_lookup, dotenv_value. rewrite !dotenv_dict_last.
  rewrite (dict_get_permutation k (rev file) (rev file')); [reflexivity| |].
  - rewrite map_rev. apply NoDup_rev, Hnd.
  - rewrite <- !Permutation_rev. exact Hperm.
Qed.

(** ** What each variable decides *)





(** The statements after [load_dotenv()] read [os.environ] at the eight
    variables only. *)
Lemma settings_read_only_keys (module_file : path) (e e' : environ) :
  (forall k, In k settings_keys -> e' !! k = e !! k) ->
  snd (settings [] module_file e') = snd (settings [] module_file e).
Proof.
  intros Hkeys.
  unfold settings, bind, load_dotenv, os_environ_get, os_getenv, str_split,
    ret.
  cbn [fst snd dotenv_dict fold_left set_as_environment_variables].
  rewrite !Hkeys by (cbn [settings_keys In]; tauto).
  reflexivity.
Qed.

(** ** More on the allowed-hosts list *)







(** ** Paths *)



(** ** The database settings *)



(** ** Production mode *)



(** * The import with the checks of [os.environ] *)

(** ** The loop of [load_dotenv()] *)

Lemma dict_get_key {V : Type} (k : string) (v : V) (l : list (string * V)) :
  dict_get k l = Some v -> In k (map fst l).
Proof.
  intros Hget. change k with (fst (k, v)). apply in_map, dict_get_In, Hget.
Qed.

Lemma checked_set_cons (k : string) (v : option string)
  (d : list (string * option string)) (e : environ) :
  Checked.set_as_environment_variables ((k, v) :: d) e =
  match e !! k, v with
  | None, Some s =>
      match Checked.setitem_error k s with
      | Some x => (e, inl x)
      | None => Checked.set_as_environment_variables d (<[k := s]> e)
      end
  | _, _ => Checked.set_as_environment_variables d e
  end.
Proof.
  cbn [Checked.set_as_environment_variables].
  unfold bind, Checked.environ_contains, Checked.environ_setitem.
  destruct (e !! k); [reflexivity|].
  destruct v as [s|]; [|reflexivity].
  destruct (Checked.setitem_error k s); reflexivity.
Qed.

(** When no assignment raises, the loop is the one of
    [set_as_environment_variables]. *)
Lemma checked_set_returns (d : list (string * option string)) (e : environ) :
  snd (Checked.set_as_environment_variables d e) = inr tt ->
  Checked.set_as_environment_variables d e
  = (set_as_environment_variables d e, inr tt).
Proof.
  revert e. induction d as [|[k v] d IH]; intros e.
  - reflexivity.
  - rewrite checked_set_cons.
    change (set_as_environment_variables ((k, v) :: d) e)
      with (set_as_environment_variables d
              match e !! k with
              | Some _ => e
              | None => match v with Some s => <[k := s]> e | None => e end
              end).
    destruct (e !! k); [apply IH|].
    destruct v as [s|]; [|apply IH].
    destruct (Checked.setitem_error k s); [discriminate | apply IH].
Qed.

(** The loop returns exactly when every binding it has to set can be
    stored. *)
Lemma checked_set_outcome (d : list (string * option string)) (e : environ) :
  List.NoDup (map fst d) ->
  snd (Checked.set_as_environment_variables d e) = inr tt <->
  (forall k v, dict_get k d = Some (Some v) -> e !! k = None ->
               Checked.storable k v = true).
Proof.
  revert e. induction d as [|[k0 v0] d IH]; intros e Hnd.
  - split; [intros _ k v Hget; discriminate Hget | reflexivity].
  - inversion Hnd as [|? ? Hfresh Hnd']; subst.
    rewrite checked_set_cons.
    assert (Hother : forall k (x : option string),
              dict_get k d = Some x -> k <> k0).
    { intros k x Hget ->. apply Hfresh. eapply dict_get_key, Hget. }
    assert (Hcons : forall k, k <> k0 ->
              dict_get k ((k0, v0) :: d) = dict_get k d).
    { intros k Hne. cbn [dict_get].
      destruct (String.eqb_spec k k0); [contradiction | reflexivity]. }
    assert (Hhead : dict_get k0 ((k0, v0) :: d) = Some v0).
    { cbn [dict_get]. rewrite String.eqb_refl. reflexivity. }
    destruct (e !! k0) as [w|] eqn:Hk0; [|destruct v0 as [s|]].
    + rewrite IH by exact Hnd'. split; intros H k v Hget Hnone.
      * assert (k <> k0) by congruence.
        apply (H k v); [rewrite <- Hcons by assumption|]; assumption.
      * apply (H k v); [|exact Hnone].
        rewrite Hcons by (eapply Hother, Hget). exact Hget.
    + unfold Checked.storable at 1.
      destruct (Checked.setitem_error k0 s) as [x|] eqn:Herr.
      * split; [discriminate|]. intros H.
        specialize (H k0 s Hhead Hk0). unfold Checked.storable in H.
        rewrite Herr in H. discriminate H.
      * rewrite IH by exact Hnd'. split; intros H k v Hget Hnone.
        -- destruct (String.eqb_spec k k0) as [->|Hne].
           ++ rewrite Hhead in Hget. injection Hget as <-.
              unfold Checked.storable. rewrite Herr. reflexivity.
           ++ apply (H k v); [rewrite <- Hcons by assumption; exact Hget|].
              rewrite lookup_insert_ne by congruence. exact Hnone.
        -- assert (Hne : k <> k0) by (eapply Hother, Hget).
           apply (H k v); [rewrite Hcons by exact Hne; exact Hget|].
           rewrite lookup_insert_ne in Hnone by congruence. exact Hnone.
    + rewrite IH by exact Hnd'. split; intros H k v Hget Hnone.
      * destruct (String.eqb_spec k k0) as [->|Hne].
        -- rewrite Hhead in Hget. discriminate Hget.
        -- apply (H k v); [rewrite <- Hcons by assumption|]; assumption.
      * apply (H k v); [|exact Hnone].
        rewrite Hcons by (eapply Hother, Hget). exact Hget.
Qed.

(** ** [load_dotenv()] and the statements after it *)

Lemma checked_load_returns (disabled : environ -> bool) (file : dotenv)
  (e : environ) :
  snd (Checked.load_dotenv disabled file e) = inr tt <->
  (disabled e = true
   \/ forall k v, dict_get k (dotenv_dict file) = Some (Some v) ->
                  e !! k = None -> Checked.storable k v = true).
Proof.
  unfold Checked.load_dotenv. destruct (disabled e).
  - split; [left|]; reflexivity.
  - rewrite checked_set_outcome by apply dotenv_dict_NoDup.
    split; [intros H; right; exact H | intros [H|H]; [discriminate H | exact H]].
Qed.

Lemma checked_load_agrees (disabled : environ -> bool) (file : dotenv)
  (e : environ) :
  disabled e = false ->
  snd (Checked.load_dotenv disabled file e) = inr tt ->
  Checked.load_dotenv disabled file e = load_dotenv file e.
Proof.
  unfold Checked.load_dotenv, load_dotenv. intros ->.
  apply checked_set_returns.
Qed.

(** The statements after [load_dotenv()] are those of [settings] on an
    empty file, which loads nothing. *)
Lemma checked_settings_after_load (disabled : environ -> bool)
  (file : dotenv) (module_file : path) (e : environ) :
  Checked.settings disabled file module_file e =
  match Checked.load_dotenv disabled file e with
  | (e', inr _) => settings [] module_file e'
  | (e', inl x) => (e', inl x)
  end.
Proof.
  unfold Checked.settings, settings, bind.
  destruct (Checked.load_dotenv disabled file e) as [e' [x|[]]]; reflexivity.
Qed.

Lemma source_lookup_nil (e : environ) (k : string) :
  source_lookup e [] k = e !! k.
Proof.
  unfold source_lookup, dotenv_value. cbn [dotenv_dict fold_left dict_get].
  destruct (e !! k); reflexivity.
Qed.

(** The import returns or raises as [load_dotenv()] does, and a returning
    import leaves [os.environ] as [load_dotenv()] left it. *)
Lemma checked_import_outcome (disabled : environ -> bool) (file : dotenv)
  (module_file : path) (e : environ) :
  (forall x, Checked.import_settings disabled file module_file e = inl x <->
             snd (Checked.load_dotenv disabled file e) = inl x)
  /\ (forall cfg,
        Checked.import_settings disabled file module_file e = inr cfg ->
        snd (Checked.load_dotenv disabled file e) = inr tt
        /\ Checked.environ_after_import disabled file module_file e
           = fst (Checked.load_dotenv disabled file e)
        /\ import_settings []
             module_file (fst (Checked.load_dotenv disabled file e))
           = inr cfg)
  /\ (snd (Checked.load_dotenv disabled file e) = inr tt ->
      exists cfg, Checked.import_settings disabled file module_file e = inr cfg).
Proof.
  unfold Checked.import_settings, Checked.environ_after_import.
  rewrite checked_settings_after_load.
  destruct (Checked.load_dotenv disabled file e) as [e' [x'|[]]]; cbn [fst snd].
  - split; [intros x; split; intros H; injection H as ->; reflexivity|].
    split; [intros cfg H; discriminate H | intros H; discriminate H].
  - destruct (settings_run [] module_file e') as (cfg' & Hrun & _).
    rewrite Hrun. cbn [fst snd load_dotenv dotenv_dict fold_left
                         set_as_environment_variables].
    split; [intros x; split; intros H; discriminate H|].
    split; [|intros _; exists cfg'; reflexivity].
    intros cfg Hcfg. split; [reflexivity|]. split; [reflexivity|].
    unfold import_settings. rewrite Hrun. exact Hcfg.
Qed.

(** After a returning import, [os.environ] holds the layered lookup of the
    sources, or the process environment alone when loading is switched
    off. *)
Lemma checked_import_environ (disabled : environ -> bool) (file : dotenv)
  (module_file : path) (e : environ) (cfg : Settings) (k : string) :
  Checked.import_settings disabled file module_file e = inr cfg ->
  Checked.environ_after_import disabled file module_file e !! k
  = if disabled e then e !! k else source_lookup e file k.
Proof.
  intros Himport.
  destruct (checked_import_outcome disabled file module_file e)
    as (_ & Hret & _).
  destruct (Hret cfg Himport) as (Hload & -> & _).
  destruct (disabled e) eqn:Hd.
  - unfold Checked.load_dotenv. rewrite Hd. reflexivity.
  - rewrite (checked_load_agrees disabled file e Hd Hload).
    apply load_dotenv_lookup.
Qed.

(** When loading is not switched off and no assignment raises, the import
    is the one that [settings] describes. *)
Lemma checked_settings_agrees (disabled : environ -> bool) (file : dotenv)
  (module_file : path) (e : environ) :
  disabled e = false ->
  snd (Checked.load_dotenv disabled file e) = inr tt ->
  Checked.settings disabled file module_file e = settings file module_file e.
Proof.
  intros Hd Hload. unfold Checked.settings, settings, bind.
  rewrite (checked_load_agrees disabled file e Hd Hload). reflexivity.
Qed.

Example checked_import_aborts_on_nul :
  Checked.settings Checked.no_switch
    [("DATABASE_HOST", Some "db");
     ("SECRET_KEY", Some (String "a" (String Ascii.zero "b")));
     ("DATABASE_NAME", Some "app")]
    example_module_file ∅
  = ({["DATABASE_HOST" := "db"]}, inl (ValueError "embedded null byte")).
Proof. vm_compute. reflexivity. Qed.

Example checked_import_aborts_on_name :
  Checked.import_settings Checked.no_switch [("A=B", Some "1")]
    example_module_file ∅
  = inl (ValueError "illegal environment variable name").
Proof. vm_compute. reflexivity. Qed.

(** ** When the import fails *)

(** C6, amended.  The import never fails over the type of a value: it
    coerces nothing, and when it returns, the port setting is the raw
    string that [os.environ] then holds for DATABASE_PORT, or the default
    "5432", and never an integer.  Once the environment file is read and
    parsed into its bindings, the import fails only inside
    [load_dotenv()], with its [ValueError]: it returns exactly when
    loading is switched off or every binding of the environment file that
    has to be set can be stored in [os.environ], and for DATABASE_PORT
    that is every value without a NUL, integer or not. *)
Theorem import_fails_only_in_load_dotenv (disabled : environ -> bool)
  (file : dotenv) (module_file : path) (e : environ) :
  (forall x,
     Checked.import_settings disabled file module_file e = inl x <->
     snd (Checked.load_dotenv disabled file e) = inl x)
  /\ ((exists cfg,
         Checked.import_settings disabled file module_file e = inr cfg) <->
      (disabled e = true
       \/ forall k v, dict_get k (dotenv_dict file) = Some (Some v) ->
                      e !! k = None -> Checked.storable k v = true))
  /\ (forall cfg,
        Checked.import_settings disabled file module_file e = inr cfg ->
        Checked.environ_after_import disabled file module_file e
          !! "DATABASE_PORT"
        = (if disabled e then e !! "DATABASE_PORT"
           else source_lookup e file "DATABASE_PORT")
        /\ database_setting cfg "PORT" =
             Some (VStr (default "5432"
                           (Checked.environ_after_import disabled file
                              module_file e !! "DATABASE_PORT")))
        /\ forall n : Z, database_setting cfg "PORT" <> Some (VInt n))
  /\ (forall v,
        Checked.storable "DATABASE_PORT" v
        = negb (str_contains Ascii.zero v)).
Proof.
  destruct (checked_import_outcome disabled file module_file e)
    as (Hraise & Hret & Htotal).
  split; [exact Hraise|]. split; [|split].
  - rewrite <- checked_load_returns. split.
    + intros [cfg Hcfg]. apply (Hret cfg Hcfg).
    + exact Htotal.
  - intros cfg Hcfg.
    split; [apply (checked_import_environ _ _ _ _ cfg), Hcfg|].
    destruct (Hret cfg Hcfg) as (_ & -> & Hbody).
    destruct (import_settings_run [] module_file
                (fst (Checked.load_dotenv disabled file e)))
      as (cfg0 & Himport0 & _ & _ & _ & _ & _ & _ & _ & _ & _ & Hport & _).
    assert (cfg0 = cfg) as -> by congruence.
    rewrite Hport, source_lookup_nil. split; [reflexivity | discriminate].
  - intros v. unfold Checked.storable, Checked.setitem_error.
    change (str_contains Ascii.zero "DATABASE_PORT") with false.
    cbn [orb]. destruct (str_contains Ascii.zero v); reflexivity.
Qed.

Lemma import_fails_only_in_load_dotenv_witness :
  exists cfg,
    Checked.import_settings Checked.no_switch [("DATABASE_PORT", Some "abc")]
      example_module_file ∅ = inr cfg
    /\ database_setting cfg "PORT" = Some (VStr "abc").
Proof.
  destruct (import_fails_only_in_load_dotenv Checked.no_switch
              [("DATABASE_PORT", Some "abc")] example_module_file ∅)
    as (_ & Hreturns & Hport & _).
  destruct (proj2 Hreturns) as [cfg Hcfg].
  { right. intros k v Hget _.
    change (dotenv_dict [("DATABASE_PORT", Some "abc")])
      with [("DATABASE_PORT", Some "abc")] in Hget.
    cbn [dict_get] in Hget.
    destruct (String.eqb_spec k "DATABASE_PORT") as [->|_];
      [|discriminate Hget].
    injection Hget as <-. reflexivity. }
  exists cfg. split; [exact Hcfg|].
  destruct (Hport cfg Hcfg) as (Hafter & -> & _).
  rewrite Hafter. reflexivity.
Defined.

(** ** Bindings that are set *)



(** ** Order of the bindings *)

Lemma dotenv_dict_permutation (file file' : dotenv) (k : string) :
  List.NoDup (map fst file) ->
  Permutation file file' ->
  dict_get k (dotenv_dict file') = dict_get k (dotenv_dict file).
Proof.
  intros Hnd Hperm. rewrite !dotenv_dict_last. symmetry.
  apply dict_get_permutation.
  - rewrite map_rev. apply NoDup_rev, Hnd.
  - rewrite <- !Permutation_rev. exact Hperm.
Qed.

(** The bindings of the environment file are taken as python-dotenv
    parses and expands them.  When no name is bound twice, their order
    does not matter to an import that returns: with the same bindings in
    another order the import returns the same namespace and leaves the
    same [os.environ]. *)
Theorem dotenv_binding_order_irrelevant (disabled : environ -> bool)
  (file file' : dotenv) (module_file : path) (e : environ) (cfg : Settings) :
  List.NoDup (map fst file) ->
  Permutation file file' ->
  Checked.import_settings disabled file module_file e = inr cfg ->
  Checked.import_settings disabled file' module_file e = inr cfg
  /\ Checked.environ_after_import disabled file' module_file e
     = Checked.environ_after_import disabled file module_file e.
Proof.
  intros Hnd Hperm Himport.
  assert (Hsame : Checked.load_dotenv disabled file' e
                  = Checked.load_dotenv disabled file e).
  { destruct (checked_import_outcome disabled file module_file e)
      as (_ & Hret & _).
    destruct (Hret cfg Himport) as (Hload & _).
    destruct (disabled e) eqn:Hd.
    - unfold Checked.load_dotenv. rewrite Hd. reflexivity.
    - assert (Hload' : snd (Checked.load_dotenv disabled file' e) = inr tt).
      { apply checked_load_returns. right. intros k v Hget Hnone.
        apply checked_load_returns in Hload as [Hon|Hall]; [congruence|].
        apply Hall; [|exact Hnone].
        rewrite <- (dotenv_dict_permutation file file' k Hnd Hperm).
        exact Hget. }
      rewrite (checked_load_agrees disabled file e Hd Hload).
      rewrite (checked_load_agrees disabled file' e Hd Hload').
      unfold load_dotenv. f_equal.
      apply (load_dotenv_permutation file file' e Hnd Hperm). }
  unfold Checked.import_settings, Checked.environ_after_import in *.
  rewrite checked_settings_after_load in *. rewrite Hsame.
  split; [exact Himport | reflexivity].
Qed.

Lemma dotenv_binding_order_irrelevant_witness :
  exists cfg,
    Checked.import_settings Checked.no_switch
      [("ENV", Some "PROD"); ("DATABASE_NAME", Some "app")]
      example_module_file ∅ = inr cfg
    /\ Checked.import_settings Checked.no_switch
         [("DATABASE_NAME", Some "app"); ("ENV", Some "PROD")]
         example_module_file ∅ = inr cfg.
Proof.
  destruct (checked_import_outcome Checked.no_switch
              [("ENV", Some "PROD"); ("DATABASE_NAME", Some "app")]
              example_module_file ∅)
    as (_ & _ & Hreturns).
  destruct Hreturns as [cfg Hcfg]; [vm_compute; reflexivity|].
  exists cfg. split; [exact Hcfg|].
  apply (dotenv_binding_order_irrelevant Checked.no_switch
           [("ENV", Some "PROD"); ("DATABASE_NAME", Some "app")]
           [("DATABASE_NAME", Some "app"); ("ENV", Some "PROD")]
           example_module_file ∅ cfg).
  - cbn [map fst]. constructor.
    + cbn [In]. intros [H|[]]. discriminate H.
    + constructor; [intros [] | constructor].
  - apply perm_swap.
  - exact Hcfg.
Defined.

(** ** The variables that decide the namespace *)

(** Two imports that return, from whatever sources and with whatever
    switch, bind the same namespace as soon as [os.environ], as their
    [load_dotenv()] left it, agrees on the eight variables the module
    reads: nothing else in the environment or in the file reaches a
    setting. *)
Theorem import_reads_only_settings_keys (disabled disabled' : environ -> bool)
  (file file' : dotenv) (module_file : path) (e e' : environ)
  (cfg cfg' : Settings) :
  Checked.import_settings disabled file module_file e = inr cfg ->
  Checked.import_settings disabled' file' module_file e' = inr cfg' ->
  (forall k, In k settings_keys ->
     Checked.environ_after_import disabled' file' module_file e' !! k
     = Checked.environ_after_import disabled file module_file e !! k) ->
  cfg' = cfg.
Proof.
  intros Himport Himport' Hkeys.
  destruct (checked_import_outcome disabled file module_file e)
    as (_ & Hret & _).
  destruct (checked_import_outcome disabled' file' module_file e')
    as (_ & Hret' & _).
  destruct (Hret cfg Himport) as (_ & Hafter & Hbody).
  destruct (Hret' cfg' Himport') as (_ & Hafter' & Hbody').
  rewrite Hafter, Hafter' in Hkeys.
  unfold import_settings in Hbody, Hbody'.
  rewrite (settings_read_only_keys module_file _ _ Hkeys) in Hbody'.
  congruence.
Qed.

Lemma import_reads_only_settings_keys_witness :
  exists cfg cfg',
    Checked.import_settings Checked.no_switch [("EDITOR", Some "vi")]
      example_module_file {["ENV" := "PROD"; "HOME" := "/root"]} = inr cfg
    /\ Checked.import_settings (fun _ => true) [("ENV", Some "DEV")]
         example_module_file {["ENV" := "PROD"]} = inr cfg'
    /\ cfg' = cfg.
Proof.
  destruct (checked_import_outcome Checked.no_switch [("EDITOR", Some "vi")]
              example_module_file {["ENV" := "PROD"; "HOME" := "/root"]})
    as (_ & _ & Hreturns).
  destruct Hreturns as [cfg Hcfg]; [vm_compute; reflexivity|].
  destruct (checked_import_outcome (fun _ => true) [("ENV", Some "DEV")]
              example_module_file {["ENV" := "PROD"]})
    as (_ & _ & Hreturns').
  destruct Hreturns' as [cfg' Hcfg']; [vm_compute; reflexivity|].
  exists cfg, cfg'. split; [exact Hcfg|]. split; [exact Hcfg'|].
  apply (import_reads_only_settings_keys Checked.no_switch (fun _ => true)
           [("EDITOR", Some "vi")] [("ENV", Some "DEV")]
           example_module_file
           {["ENV" := "PROD"; "HOME" := "/root"]} {["ENV" := "PROD"]}
           cfg cfg' Hcfg Hcfg').
  cbn [settings_keys In].
  intros k [<-|[<-|[<-|[<-|[<-|[<-|[<-|[<-|[]]]]]]]]]; vm_compute; reflexivity.
Defined.
